(** * The Beanbag ESLint plugin: its exported registries, verified

    The plugin (src/index.ts) is a module of object literals: four rule-set
    constants ([es5Config], [es6Config], [typescriptConfig],
    [jasmineTestsConfig]) and the two exported registries [configs] and
    [environments].  The literals are embedded as they are written, as trees
    of JavaScript values; an object literal is the ordered list of its
    properties. *)

From Stdlib Require Import String Ascii List Bool ZArith.
Import ListNotations.
Local Open Scope string_scope.

(** ** JavaScript values of the literals *)

#[warnings="-register-all"] Inductive value : Type :=
| VStr (s : string)
| VNum (n : Z)
| VBool (b : bool)
| VArr (items : list value)
| VObj (fields : list (string * value)).

Definition props : Type := list (string * value).

Module Js.

(** [obj[k]] for an object written as a literal: a property written twice
    takes the value written last. *)
Fixpoint lookup (k : string) (fs : props) : option value :=
  match fs with
  | [] => None
  | (k', v) :: rest =>
      match lookup k rest with
      | Some w => Some w
      | None => if k =? k' then Some v else None
      end
  end.

(** The property names of a literal, as written. *)
Definition keys (fs : props) : list string := map fst fs.

Definition has (k : string) (fs : props) : bool :=
  existsb (String.eqb k) (keys fs).

(** [v[k]] on any value: only objects have the properties of interest. *)
Definition get (k : string) (v : value) : option value :=
  match v with
  | VObj fs => lookup k fs
  | _ => None
  end.

(** [v[i]] on an array. *)
Definition index (i : nat) (v : value) : option value :=
  match v with
  | VArr items => nth_error items i
  | _ => None
  end.

(** The properties of an object-valued property, none when it is missing or
    not an object. *)
Definition fields_at (k : string) (v : value) : props :=
  match get k v with
  | Some (VObj fs) => fs
  | _ => []
  end.

(** The strings of an array-valued property. *)
Definition strings_at (k : string) (v : value) : list string :=
  match get k v with
  | Some (VArr items) =>
      flat_map (fun x => match x with VStr s => [s] | _ => [] end) items
  | _ => []
  end.

Fixpoint distinct (l : list string) : bool :=
  match l with
  | [] => true
  | x :: rest => negb (existsb (String.eqb x) rest) && distinct rest
  end.

End Js.

(** ** The source literals *)

(** A string regex pattern used for [case] fall-through markers in
    [switch].  The JavaScript literal escapes its backslash; the string holds
    one. *)
Definition noFallThroughPattern : string := "[Ff]alls?\s?through".

(** The options object of the [indent] rule of [es5Config]. *)
Definition es5_indent_options : value :=
  VObj [
    ("ArrayExpression", VStr "first");
    ("CallExpression", VObj [("arguments", VStr "first")]);
    ("FunctionDeclaration",
       VObj [("body", VNum 1); ("parameters", VStr "first")]);
    ("FunctionExpression",
       VObj [("body", VNum 1); ("parameters", VStr "first")]);
    ("ImportDeclaration", VNum 1);
    ("MemberExpression", VStr "off");
    ("ObjectExpression", VStr "first");
    ("SwitchCase", VNum 1);
    ("ignoredNodes", VArr [VStr "ConditionalExpression"]);
    ("outerIIFEBody", VNum 0)
  ].

(** The options of the [padding-line-between-statements] rule of
    [es5Config], which follow its severity. *)
Definition es5_padding_lines : list value := [
    VObj [("blankLine", VStr "always");
          ("next", VArr [VStr "block-like"; VStr "class"; VStr "function"]);
          ("prev", VStr "*")];
    VObj [("blankLine", VStr "always");
          ("next", VStr "*");
          ("prev", VArr [VStr "block-like"; VStr "class"; VStr "function"])];
    VObj [("blankLine", VStr "any");
          ("next", VArr [VStr "const"; VStr "let"; VStr "var"]);
          ("prev", VStr "*")];
    VObj [("blankLine", VStr "always");
          ("next", VStr "*");
          ("prev", VArr [VStr "case"; VStr "default"])];
    VObj [("blankLine", VStr "always");
          ("next", VStr "return");
          ("prev", VStr "*")]
  ].

(** [es5Config.rules] *)
Definition es5_rules : props := [
    ("arrow-spacing",
       VArr [VStr "error";
             VObj [("after", VBool true); ("before", VBool true)]]);
    ("brace-style",
       VArr [VStr "error"; VStr "1tbs";
             VObj [("allowSingleLine", VBool true)]]);
    ("comma-dangle", VArr [VStr "error"; VStr "never"]);
    ("comma-spacing",
       VArr [VStr "error";
             VObj [("after", VBool true); ("before", VBool false)]]);
    ("comma-style", VArr [VStr "error"; VStr "last"]);
    ("curly", VArr [VStr "error"; VStr "all"]);
    ("default-case", VStr "error");
    ("default-case-last", VStr "error");
    ("eqeqeq", VArr [VStr "error"; VStr "always"]);
    ("func-call-spacing", VArr [VStr "error"; VStr "never"]);
    ("indent", VArr [VStr "error"; VNum 4; es5_indent_options]);
    ("linebreak-style", VArr [VStr "error"; VStr "unix"]);
    ("lines-around-comment",
       VArr [VStr "warn";
             VObj [("beforeBlockComment", VBool true);
                   ("beforeLineComment", VBool true);
                   ("allowArrayEnd", VBool true);
                   ("allowArrayStart", VBool true);
                   ("allowBlockEnd", VBool true);
                   ("allowBlockStart", VBool true);
                   ("allowClassEnd", VBool true);
                   ("allowClassStart", VBool true);
                   ("allowObjectEnd", VBool true);
                   ("allowObjectStart", VBool true);
                   ("ignorePattern", VStr noFallThroughPattern)]]);
    ("max-len",
       VArr [VStr "error";
             VObj [("code", VNum 79);
                   ("ignorePattern", VStr "gettext\(.*");
                   ("ignoreUrls", VBool true)]]);
    ("no-confusing-arrow",
       VArr [VStr "error"; VObj [("allowParens", VBool true)]]);
    ("no-fallthrough",
       VArr [VStr "error";
             VObj [("allowEmptyCase", VBool true);
                   ("commentPattern", VStr noFallThroughPattern)]]);
    ("no-mixed-spaces-and-tabs", VStr "error");
    ("no-multi-spaces",
       VArr [VStr "warn"; VObj [("ignoreEOLComments", VBool true)]]);
    ("no-multiple-empty-lines",
       VArr [VStr "error";
             VObj [("max", VNum 2); ("maxBOF", VNum 1); ("maxEOF", VNum 0)]]);
    ("no-prototype-builtins", VStr "off");
    ("no-tabs", VStr "error");
    ("no-trailing-spaces", VStr "error");
    ("no-unused-vars",
       VArr [VStr "error";
             VObj [("args", VStr "none"); ("vars", VStr "local")]]);
    ("padding-line-between-statements",
       VArr (VStr "error" :: es5_padding_lines));
    ("quotes",
       VArr [VStr "error"; VStr "single";
             VObj [("avoidEscape", VBool true)]]);
    ("semi", VArr [VStr "error"; VStr "always"]);
    ("sort-keys",
       VArr [VStr "warn"; VStr "asc";
             VObj [("allowLineSeparatedGroups", VBool true)]]);
    ("space-in-parens", VArr [VStr "error"; VStr "never"]);
    ("spaced-comment",
       VArr [VStr "error"; VStr "always";
             VObj [("block", VObj [("markers", VArr [VStr "*"; VStr "!"])]);
                   ("exceptions", VArr [VStr "*"; VStr "-"])]]);
    ("yoda", VArr [VStr "error"; VStr "never"])
  ].

Definition es5Config : value :=
  VObj [
    ("extends", VArr [VStr "eslint:recommended"]);
    ("rules", VObj es5_rules)
  ].

Definition es6Config : value :=
  VObj [
    ("env", VObj [("es2021", VBool true)]);
    ("parserOptions", VObj [("ecmaVersion", VStr "latest")]);
    ("globals", VObj [("dedent", VStr "readonly")]);
    ("rules", VObj [
       ("comma-dangle",
          VArr [VStr "error";
                VObj [("arrays", VStr "always-multiline");
                      ("exports", VStr "always-multiline");
                      ("functions", VStr "only-multiline");
                      ("imports", VStr "always-multiline");
                      ("objects", VStr "always-multiline")]]);
       ("no-var", VStr "error");
       ("prefer-const", VStr "warn");
       ("quotes",
          VArr [VStr "error"; VStr "single";
                VObj [("allowTemplateLiterals", VBool true);
                      ("avoidEscape", VBool true)]])
     ])
  ].

Definition typescriptConfig : value :=
  VObj [
    ("extends", VArr [VStr "plugin:@beanbag/es6";
                      VStr "plugin:@typescript-eslint/recommended"]);
    ("parser", VStr "@typescript-eslint/parser");
    ("plugins", VArr [VStr "@typescript-eslint"]);
    ("rules", VObj [
       ("@typescript-eslint/no-this-alias", VStr "warn");
       ("@typescript-eslint/lines-around-comment",
          VArr [VStr "warn";
                VObj [("beforeBlockComment", VBool true);
                      ("beforeLineComment", VBool true);
                      ("allowArrayEnd", VBool true);
                      ("allowArrayStart", VBool true);
                      ("allowBlockEnd", VBool true);
                      ("allowBlockStart", VBool true);
                      ("allowClassEnd", VBool true);
                      ("allowClassStart", VBool true);
                      ("allowEnumEnd", VBool true);
                      ("allowEnumStart", VBool true);
                      ("allowInterfaceEnd", VBool true);
                      ("allowInterfaceStart", VBool true);
                      ("allowModuleEnd", VBool true);
                      ("allowModuleStart", VBool true);
                      ("allowObjectEnd", VBool true);
                      ("allowObjectStart", VBool true);
                      ("allowTypeEnd", VBool true);
                      ("allowTypeStart", VBool true);
                      ("ignorePattern", VStr noFallThroughPattern)]]);
       ("lines-around-comment", VStr "off")
     ])
  ].

Definition jasmineTestsConfig : value :=
  VObj [
    ("env", VObj [("@beanbag/jasmine-suites", VBool true);
                  ("jasmine", VBool true)]);
    ("extends", VArr [VStr "plugin:jasmine/recommended"]);
    ("plugins", VArr [VStr "jasmine"]);
    ("globals", VObj [("$testsScratch", VStr "writable")]);
    ("rules", VObj [
       ("jasmine/new-line-before-expect", VStr "off");
       ("jasmine/no-expect-in-setup-teardown", VStr "off");
       ("jasmine/no-global-setup", VStr "off");
       ("jasmine/no-spec-dupes", VArr [VStr "error"; VStr "branch"]);
       ("jasmine/no-suite-dupes", VArr [VStr "warn"; VStr "branch"]);
       ("jasmine/prefer-toHaveBeenCalledWith", VStr "off")
     ])
  ].

(** The literal written in place as [configs.recommended]. *)
Definition recommendedConfig : value :=
  VObj [
    ("extends", VArr [VStr "plugin:@beanbag/es5"]);
    ("plugins", VArr [VStr "@beanbag"]);
    ("overrides", VArr [
       VObj [("files", VArr [VStr "*.es6.js"]);
             ("extends", VArr [VStr "plugin:@beanbag/es6"])];
       VObj [("files", VArr [VStr "*.ts"]);
             ("extends", VArr [VStr "plugin:@beanbag/typescript"])];
       VObj [("files", VArr [VStr "*Tests.es6.js";
                             VStr "*Tests.js";
                             VStr "*Tests.ts"]);
             ("extends", VArr [VStr "plugin:@beanbag/jasmine"])];
       VObj [("files", VArr [VStr "rollup.config.js"; VStr ".babelrc"]);
             ("extends", VArr [VStr "plugin:@beanbag/es6"]);
             ("parserOptions", VObj [("sourceType", VStr "module")])]
     ])
  ].

(** [export const configs] *)
Definition configs : props := [
    ("es5", es5Config);
    ("es6", es6Config);
    ("typescript", typescriptConfig);
    ("jasmine", jasmineTestsConfig);
    ("recommended", recommendedConfig)
  ].

(** [export const environments] *)
Definition environments : props := [
    ("backbone",
       VObj [("globals", VObj [("Backbone", VBool false);
                               ("_", VBool false)])]);
    ("django",
       VObj [("globals", VObj [("django", VBool false);
                               ("gettext", VBool false);
                               ("gettext_noop", VBool false);
                               ("interpolate", VBool false);
                               ("ngettext", VBool false);
                               ("npgettext", VBool false);
                               ("pgettext", VBool false)])]);
    ("djblets", VObj [("Djblets", VBool false)]);
    ("jasmine-suites", VObj [("globals", VObj [("suite", VBool false)])]);
    ("reviewboard", VObj [("RB", VBool false)])
  ].

(** ** Reading a configuration record *)

Inductive severity : Type := Off | Warn | Error.

Definition severity_of_value (v : value) : option severity :=
  match v with
  | VStr s =>
      if s =? "off" then Some Off
      else if s =? "warn" then Some Warn
      else if s =? "error" then Some Error
      else None
  | _ => None
  end.

(** The severity component of a rule setting: the bare value, or the first
    element when the setting is an array of severity and options. *)
Definition severity_of (setting : value) : option severity :=
  match setting with
  | VArr [] => None
  | VArr (v :: _) => severity_of_value v
  | v => severity_of_value v
  end.

Definition active (setting : value) : bool :=
  match severity_of setting with
  | Some Warn | Some Error => true
  | _ => false
  end.

Definition rules_of (cfg : value) : props := Js.fields_at "rules" cfg.

Definition globals_of (record : value) : props := Js.fields_at "globals" record.

Definition bind {A B : Type} (o : option A) (f : A -> option B) : option B :=
  match o with
  | Some a => f a
  | None => None
  end.

(** [cfg.rules[rid][i][opt]] *)
Definition rule_option (cfg : value) (rid : string) (i : nat) (opt : string)
  : option value :=
  bind (Js.get "rules" cfg) (fun rules =>
  bind (Js.get rid rules) (fun setting =>
  bind (Js.index i setting) (fun options =>
  Js.get opt options))).

(** ** Permission tags of globals

    The values the literals give to a global, read as the host linter reads
    them: [false], ['readonly'] and ['readable'] declare a read-only global,
    [true], ['writable'] and ['writeable'] a writable one. *)

Inductive permission : Type := ReadOnly | Writable.

Definition permission_of (v : value) : option permission :=
  match v with
  | VBool false => Some ReadOnly
  | VBool true => Some Writable
  | VStr s =>
      if (s =? "readonly") || (s =? "readable") then Some ReadOnly
      else if (s =? "writable") || (s =? "writeable") then Some Writable
      else None
  | _ => None
  end.

Definition is_permission (v : value) : bool :=
  match permission_of v with
  | Some _ => true
  | None => false
  end.

Definition is_read_only (v : value) : bool :=
  match permission_of v with
  | Some ReadOnly => true
  | _ => false
  end.

Definition is_writable (v : value) : bool :=
  match permission_of v with
  | Some Writable => true
  | _ => false
  end.

(** The shape of an environment record: a [globals] object whose values are
    permission tags. *)
Definition well_shaped_environment (record : value) : bool :=
  match Js.get "globals" record with
  | Some (VObj gs) => forallb (fun kv => is_permission (snd kv)) gs
  | _ => false
  end.

(** The writable globals a registry of records declares, with the name of
    the declaring record. *)
Definition writable_globals (registry : props) : list (string * string) :=
  flat_map (fun entry =>
              map (fun kv => (fst entry, fst kv))
                  (filter (fun kv => is_writable (snd kv))
                          (globals_of (snd entry))))
           registry.

(** ** Override records *)

Definition overrides_of (cfg : value) : list value :=
  match Js.get "overrides" cfg with
  | Some (VArr items) => items
  | _ => []
  end.

Definition override_files (o : value) : list string := Js.strings_at "files" o.

Definition override_extends (o : value) : list string :=
  Js.strings_at "extends" o.

(** File-name globs restricted to literal characters and [*], which stands
    for any run of characters other than the path separator.  The patterns of
    the overrides have no separator, so the host matches them against the
    base name of the file. *)
Fixpoint glob_match (p : string) : string -> bool :=
  match p with
  | EmptyString =>
      fun s => match s with EmptyString => true | String _ _ => false end
  | String c p' =>
      if Ascii.eqb c "*"%char then
        fix star (s : string) : bool :=
          glob_match p' s
          || match s with
             | EmptyString => false
             | String d s' => negb (Ascii.eqb d "/"%char) && star s'
             end
      else
        fun s =>
          match s with
          | EmptyString => false
          | String d s' => Ascii.eqb c d && glob_match p' s'
          end
  end.

Section Overrides.

(** The host's matcher of a pattern against a file name. *)
Variable matches : string -> string -> bool.

Definition override_applies (o : value) (file : string) : bool :=
  existsb (fun p => matches p file) (override_files o).

(** The configuration names the overrides of [cfg] pull in for [file]. *)
Definition resolve_overrides (cfg : value) (file : string) : list string :=
  flat_map (fun o => if override_applies o file then override_extends o
                     else [])
           (overrides_of cfg).

End Overrides.

(** ** Merging rule maps

    The package performs no merge; the host linter cascades the rule maps of
    the configurations it is told to extend.  Its cascade, on rule maps: every
    setting becomes an array; the setting of the overriding map wins, and
    when that setting is a severity alone while the overridden one carries
    options, the severity is put in front of those options. *)

Definition setting_items (setting : value) : list value :=
  match setting with
  | VArr items => items
  | v => [v]
  end.

Definition normalize_setting (setting : value) : value :=
  VArr (setting_items setting).

Definition merge_setting (over : value) (base : option value) : value :=
  match setting_items over, base with
  | [sev], Some (VArr (_ :: opt :: opts)) => VArr (sev :: opt :: opts)
  | items, _ => VArr items
  end.

Definition merge_rules (over base : props) : props :=
  app (map (fun kv =>
              (fst kv, merge_setting (snd kv) (Js.lookup (fst kv) base)))
           over)
      (map (fun kv => (fst kv, normalize_setting (snd kv)))
           (filter (fun kv => negb (Js.has (fst kv) over)) base)).

(** ** The registry operations

    The package exports the two registries and nothing else; the lookups are
    the host's property accesses. *)

Module Registry.

Record t : Type := {
  configurations : props;
  environment_records : props
}.

Inductive error : Type := NotFoundError.

(** Modelled from the spec: [getConfiguration] is not in the source, which
    only exports the [configs] object; it is the direct lookup of section
    4.1, failing with [NotFoundError] on an unregistered name. *)
Definition getConfiguration (r : t) (name : string) : error + value :=
  match Js.lookup name (configurations r) with
  | Some cfg => inr cfg
  | None => inl NotFoundError
  end.

(** Modelled from the spec: [getEnvironment] is not in the source, which
    only exports the [environments] object; direct lookup as above. *)
Definition getEnvironment (r : t) (name : string) : error + value :=
  match Js.lookup name (environment_records r) with
  | Some record => inr record
  | None => inl NotFoundError
  end.

(** Modelled from the spec: [listConfigurations] is not in the source; the
    names under which configurations are registered. *)
Definition listConfigurations (r : t) : list string :=
  Js.keys (configurations r).

(** Modelled from the spec: [listEnvironments] is not in the source; the
    names under which environments are registered. *)
Definition listEnvironments (r : t) : list string :=
  Js.keys (environment_records r).

Inductive request : Type :=
| GetConfiguration (name : string)
| GetEnvironment (name : string)
| ListConfigurations
| ListEnvironments.

Inductive response : Type :=
| Record_ (result : error + value)
| Names (names : list string).

(** Modelled from the spec: one operation of section 4.1 served on a
    registry held as explicit state; the operations only read it. *)
Definition serve (r : t) (q : request) : response * t :=
  match q with
  | GetConfiguration name => (Record_ (getConfiguration r name), r)
  | GetEnvironment name => (Record_ (getEnvironment r name), r)
  | ListConfigurations => (Names (listConfigurations r), r)
  | ListEnvironments => (Names (listEnvironments r), r)
  end.

Fixpoint run (r : t) (qs : list request) : list response * t :=
  match qs with
  | [] => ([], r)
  | q :: rest =>
      let (a, r') := serve r q in
      let (answers, r'') := run r' rest in
      (a :: answers, r'')
  end.

(** Registered names are unique, and so are the rule identifiers of every
    registered configuration. *)
Definition unique_names (r : t) : Prop :=
  NoDup (listConfigurations r)
  /\ forall name cfg,
       Js.lookup name (configurations r) = Some cfg ->
       NoDup (Js.keys (rules_of cfg)).

End Registry.

(** The registry the module exports once it is loaded. *)
Definition plugin : Registry.t :=
  {| Registry.configurations := configs;
     Registry.environment_records := environments |}.

(** ** Names that refer into the registries

    The literals refer to one another by name: [plugin:@beanbag/es6] in an
    [extends] list names [configs.es6], [@beanbag/jasmine-suites] in an [env]
    object names [environments['jasmine-suites']], and a rule identifier
    [jasmine/no-spec-dupes] names a rule of the plugin [jasmine]. *)

Fixpoint strip_prefix (p s : string) : option string :=
  match p with
  | EmptyString => Some s
  | String c p' =>
      match s with
      | EmptyString => None
      | String d s' => if Ascii.eqb c d then strip_prefix p' s' else None
      end
  end.

(** A name cut at its last separator: the namespace and the short name. *)
Fixpoint split_namespace (s : string) : option (string * string) :=
  match s with
  | EmptyString => None
  | String c rest =>
      match split_namespace rest with
      | Some (ns, name) => Some (String c ns, name)
      | None => if Ascii.eqb c "/"%char then Some (EmptyString, rest) else None
      end
  end.

(** The plugin a rule identifier belongs to, none for a core rule. *)
Definition rule_plugin (rid : string) : option string :=
  option_map fst (split_namespace rid).

(** [plugin:<namespace>/<name>] *)
Definition plugin_reference (s : string) : option (string * string) :=
  bind (strip_prefix "plugin:" s) split_namespace.

(** The name the package is registered under as a plugin, as the
    configurations themselves spell it. *)
Definition plugin_name : string := "@beanbag".

(** [@beanbag/<name>]: the short name of a configuration or an environment
    of this package, as an [env] key and the README spell it. *)
Definition package_reference (s : string) : option string :=
  match split_namespace s with
  | Some (ns, name) => if ns =? plugin_name then Some name else None
  | None => None
  end.

(** The configuration of this package an [extends] entry names:
    [plugin:@beanbag/<name>]. *)
Definition config_reference (s : string) : option string :=
  bind (strip_prefix "plugin:" s) package_reference.

Definition config_references (entries : list string) : list string :=
  flat_map (fun s => match config_reference s with
                     | Some name => [name]
                     | None => []
                     end)
           entries.

Definition extends_of (cfg : value) : list string := Js.strings_at "extends" cfg.

Definition plugins_of (cfg : value) : list string := Js.strings_at "plugins" cfg.

Definition env_of (cfg : value) : props := Js.fields_at "env" cfg.

(** Every [extends] entry a configuration writes, its own and those of its
    override records. *)
Definition all_extends (cfg : value) : list string :=
  app (extends_of cfg) (flat_map override_extends (overrides_of cfg)).

(** ** Chains of extended configurations *)

Inductive chain_error : Type :=
| UnknownConfiguration (name : string)
| ExtendsTooDeep.

Fixpoint gather (rs : list (chain_error + list string))
  : chain_error + list string :=
  match rs with
  | [] => inr []
  | inl e :: _ => inl e
  | inr l :: rest =>
      match gather rest with
      | inl e => inl e
      | inr ls => inr (app l ls)
      end
  end.

(** The configurations of the registry that [name] brings in, the extended
    ones first and [name] last, following the [extends] entries that name
    configurations of this package to at most [fuel] levels. *)
Fixpoint extends_chain (fuel : nat) (registry : props) (name : string)
  : chain_error + list string :=
  match fuel with
  | O => inl ExtendsTooDeep
  | S fuel' =>
      match Js.lookup name registry with
      | None => inl (UnknownConfiguration name)
      | Some cfg =>
          match gather (map (extends_chain fuel' registry)
                            (config_references (extends_of cfg))) with
          | inl e => inl e
          | inr above => inr (app above [name])
          end
      end
  end.

Definition chain_names (registry : props) (name : string) : list string :=
  match extends_chain (length registry) registry name with
  | inr chain => chain
  | inl _ => []
  end.

(** The configurations of the package in force on [file] for a project that
    extends the recommended configuration: the chain of the recommended
    configuration, then the chains its overrides pull in for that file. *)
Definition applied_configs (matches : string -> string -> bool)
           (file : string) : list string :=
  app (chain_names configs "recommended")
      (flat_map (chain_names configs)
                (config_references
                   (resolve_overrides matches recommendedConfig file))).

(** ** The lint configuration of the package itself (eslint.config.mjs) *)

(** The names handed to [compat.extends]. *)
Definition eslint_config_extends : list string :=
  ["plugin:@beanbag/recommended"].

(** The [plugins] object: the package, imported, under its plugin name. *)
Definition eslint_config_plugins : props :=
  [("@beanbag", VObj [("configs", VObj configs);
                      ("environments", VObj environments)])].

(** [plugins[namespace].configs[name]] for an entry [plugin:namespace/name]. *)
Definition resolve_plugin_config (plugins : props) (entry : string)
  : option value :=
  bind (plugin_reference entry) (fun ref =>
  bind (Js.lookup (fst ref) plugins) (fun plugin =>
  bind (Js.get "configs" plugin) (fun registry =>
  Js.get (snd ref) registry))).

(** ** What the README documents *)

(** The configurations the README describes. *)
Definition readme_configurations : list string :=
  ["@beanbag/recommended"; "@beanbag/es5"; "@beanbag/es6";
   "@beanbag/typescript"].

(** The environments the README lists, each with the identifiers it is said
    to record as read-only globals. *)
Definition readme_environments : list (string * list string) :=
  [("@beanbag/backbone", ["Backbone"; "_"]);
   ("@beanbag/django",
    ["django"; "gettext"; "gettext_noop"; "interpolate"; "ngettext";
     "npgettext"; "pgettext"]);
   ("@beanbag/djblets", ["Djblets"]);
   ("@beanbag/jasmine-suites", ["suite"]);
   ("@beanbag/reviewboard", ["RB"])].

(** The identifiers an environment record writes: those of its [globals]
    object, or its own properties when it has none. *)
Definition written_identifiers (record : value) : props :=
  match Js.get "globals" record with
  | Some (VObj gs) => gs
  | _ => match record with VObj fs => fs | _ => [] end
  end.

(** ** The shape of a rule setting *)

Definition has_options (setting : value) : bool :=
  match setting with
  | VArr (_ :: _ :: _) => true
  | _ => false
  end.

Definition bare_severity (setting : value) : bool :=
  match setting with
  | VStr _ => true
  | _ => false
  end.

(** ** Properties of property lookup *)

Section LookupFacts.

Lemma lookup_Some_In (k : string) (fs : props) (v : value) :
  Js.lookup k fs = Some v -> In (k, v) fs.
Proof.
  induction fs as [|[k' v'] rest IH]; simpl; [discriminate|].
  destruct (Js.lookup k rest) as [w|].
  - intros E. injection E as ->. right. now apply IH.
  - destruct (String.eqb_spec k k') as [->|_]; [|discriminate].
    intros E. injection E as ->. now left.
Qed.

Lemma has_true_iff (k : string) (fs : props) :
  Js.has k fs = true <-> In k (Js.keys fs).
Proof.
  unfold Js.has. rewrite existsb_exists. split.
  - intros (x & Hin & E). apply String.eqb_eq in E. now subst.
  - intros Hin. exists k. split; [assumption|apply String.eqb_refl].
Qed.

Lemma lookup_None_iff (k : string) (fs : props) :
  Js.lookup k fs = None <-> ~ In k (Js.keys fs).
Proof.
  induction fs as [|[k' v'] rest IH]; simpl.
  - tauto.
  - destruct (Js.lookup k rest) as [w|].
    + split; [discriminate|]. intros Hn. exfalso. apply Hn. right.
      destruct (in_dec string_dec k (Js.keys rest)) as [Hin|Hout];
        [assumption|]. apply IH in Hout. discriminate.
    + destruct (String.eqb_spec k k') as [->|Hne].
      * split; [discriminate|]. intros Hn. exfalso. apply Hn. now left.
      * split; [|reflexivity]. intros _ [E|Hin]; [congruence|].
        now apply (proj1 IH).
Qed.

Lemma lookup_has (k : string) (fs : props) :
  Js.has k fs = false <-> Js.lookup k fs = None.
Proof.
  rewrite lookup_None_iff, <- has_true_iff.
  destruct (Js.has k fs); split; congruence.
Qed.

Lemma lookup_app (k : string) (fs gs : props) :
  Js.lookup k (fs ++ gs)%list =
    match Js.lookup k gs with
    | Some w => Some w
    | None => Js.lookup k fs
    end.
Proof.
  induction fs as [|[k' v'] rest IH]; simpl.
  - now destruct (Js.lookup k gs).
  - rewrite IH. now destruct (Js.lookup k gs).
Qed.

(** Mapping the values of a literal, each by a function of its own key. *)
Lemma lookup_map_values (f : string -> value -> value) (k : string)
      (fs : props) :
  Js.lookup k (map (fun kv => (fst kv, f (fst kv) (snd kv))) fs) =
    option_map (f k) (Js.lookup k fs).
Proof.
  induction fs as [|[k' v'] rest IH]; simpl; [reflexivity|].
  rewrite IH. destruct (Js.lookup k rest); simpl; [reflexivity|].
  now destruct (String.eqb_spec k k') as [->|_].
Qed.

(** Dropping properties by key leaves the other keys as they were. *)
Lemma lookup_filter_keys (keep : string -> bool) (k : string) (fs : props) :
  Js.lookup k (filter (fun kv => keep (fst kv)) fs) =
    if keep k then Js.lookup k fs else None.
Proof.
  induction fs as [|[k' v'] rest IH]; simpl.
  - now destruct (keep k).
  - destruct (keep k') eqn:Ek'; simpl; rewrite IH;
      destruct (keep k) eqn:Ek; try reflexivity.
    + destruct (String.eqb_spec k k') as [->|_]; congruence.
    + destruct (Js.lookup k rest); [reflexivity|].
      destruct (String.eqb_spec k k') as [->|_]; congruence.
Qed.

Lemma distinct_NoDup (l : list string) : Js.distinct l = true -> NoDup l.
Proof.
  induction l as [|x rest IH]; simpl; [constructor|].
  rewrite andb_true_iff, negb_true_iff. intros [Hx Hrest].
  constructor; [|now apply IH].
  intros Hin.
  assert (existsb (String.eqb x) rest = true) as E.
  { apply existsb_exists. exists x. split; [assumption|apply String.eqb_refl]. }
  congruence.
Qed.

End LookupFacts.

(** ** The registry operations *)

Lemma getConfiguration_fails_iff (r : Registry.t) (name : string) :
  Registry.getConfiguration r name = inl Registry.NotFoundError
  <-> ~ In name (Registry.listConfigurations r).
Proof.
  unfold Registry.getConfiguration, Registry.listConfigurations.
  rewrite <- lookup_None_iff.
  destruct (Js.lookup name (Registry.configurations r));
    split; congruence.
Qed.

Lemma serve_reads_only (r : Registry.t) (q : Registry.request) :
  snd (Registry.serve r q) = r.
Proof. now destruct q. Qed.

Lemma run_reads_only (qs : list Registry.request) :
  forall r, snd (Registry.run r qs) = r.
Proof.
  induction qs as [|q rest IH]; intros r; simpl; [reflexivity|].
  pose proof (serve_reads_only r q) as Hs.
  destruct (Registry.serve r q) as [a r']. simpl in Hs. subst r'.
  specialize (IH r). destruct (Registry.run r rest) as [answers r''].
  exact IH.
Qed.

(** ** The cascade of rule maps *)

Lemma lookup_merge_rules (over base : props) (k : string) :
  Js.lookup k (merge_rules over base) =
    match Js.lookup k over with
    | Some v => Some (merge_setting v (Js.lookup k base))
    | None => option_map normalize_setting (Js.lookup k base)
    end.
Proof.
  unfold merge_rules. rewrite lookup_app.
  rewrite (lookup_map_values (fun _ v => normalize_setting v)).
  rewrite (lookup_filter_keys (fun k' => negb (Js.has k' over))).
  rewrite (lookup_map_values (fun k' v => merge_setting v (Js.lookup k' base))).
  destruct (Js.has k over) eqn:Eh; simpl.
  - destruct (Js.lookup k over) as [v|] eqn:El; [reflexivity|].
    apply lookup_has in El. congruence.
  - apply lookup_has in Eh. rewrite Eh. simpl.
    now destruct (Js.lookup k base).
Qed.

(** The overriding setting keeps its severity, whatever it is merged over. *)
Lemma severity_merge_setting (over : value) (base : option value) :
  severity_of (merge_setting over base) = severity_of over.
Proof.
  unfold merge_setting.
  destruct over as [s|n|b|items|fs]; simpl;
    try (destruct base as [[?|?|?|[|? [|? ?]]|?]|]; reflexivity).
  destruct items as [|sev [|x rest]]; [reflexivity| |reflexivity].
  destruct base as [[?|?|?|[|? [|? ?]]|?]|]; reflexivity.
Qed.

Lemma keys_functional (fs : props) (k : string) (v v' : value) :
  NoDup (Js.keys fs) -> In (k, v) fs -> In (k, v') fs -> v = v'.
Proof.
  induction fs as [|[k0 v0] rest IH]; simpl; [tauto|].
  intros Hnd Hv Hv'. inversion Hnd as [|? ? Hout Hrest]; subst.
  assert (forall w, In (k0, w) rest -> False) as Hfresh.
  { intros w Hin. apply Hout. change k0 with (fst (k0, w)).
    now apply in_map. }
  destruct Hv as [E|Hv], Hv' as [E'|Hv'].
  - congruence.
  - injection E as -> ->. now destruct (Hfresh v').
  - injection E' as -> ->. now destruct (Hfresh v).
  - now apply IH.
Qed.

(** ** The environments registry *)

(** C1: every environment record of the registry should hold its globals
    under a [globals] mapping of permission tags.  The records of [backbone],
    [django] and [jasmine-suites] do; the records of [djblets] and
    [reviewboard] are written without the [globals] level, so they have no
    [globals] mapping at all. *)
Theorem environments_missing_globals_level :
  map (fun e => (fst e, well_shaped_environment (snd e))) environments =
    [("backbone", true); ("django", true); ("djblets", false);
     ("jasmine-suites", true); ("reviewboard", false)]
  /\ (exists record,
        Js.lookup "djblets" environments = Some record
        /\ record = VObj [("Djblets", VBool false)]
        /\ Js.get "globals" record = None
        /\ globals_of record = [])
  /\ (exists record,
        Js.lookup "reviewboard" environments = Some record
        /\ record = VObj [("RB", VBool false)]
        /\ Js.get "globals" record = None
        /\ globals_of record = []).
Proof.
  split; [reflexivity|].
  split; eexists; repeat split; reflexivity.
Qed.

(** C5: the environment named backbone is a record whose globals mapping is
    exactly Backbone and _, both read-only: looking up any other identifier
    in it finds nothing. *)
Theorem backbone_globals_exact :
  exists record,
    Js.lookup "backbone" environments = Some record
    /\ Registry.getEnvironment plugin "backbone" = inr record
    /\ Js.get "globals" record =
         Some (VObj [("Backbone", VBool false); ("_", VBool false)])
    /\ forall g,
         bind (Js.lookup g (globals_of record)) permission_of =
           if (g =? "Backbone") || (g =? "_") then Some ReadOnly else None.
Proof.
  eexists. split; [reflexivity|]. split; [reflexivity|].
  split; [reflexivity|].
  intros g. unfold globals_of, Js.fields_at. simpl.
  destruct (g =? "_"), (g =? "Backbone"); reflexivity.
Qed.

(** C10: every global declared by an environment record of the registry is
    read-only, whether the record writes it under a [globals] mapping or, as
    djblets and reviewboard do, directly; so no environment declares a
    writable global, and the one writable global of the package,
    $testsScratch, is declared by the jasmine configuration. *)
Theorem environment_globals_read_only
        (name : string) (record : value) (g : string) (tag : value) :
  Js.lookup name environments = Some record ->
  In (g, tag) (globals_of record) \/ In (g, tag) (written_identifiers record) ->
  permission_of tag = Some ReadOnly
  /\ (forall k v, Js.get k record = Some v -> k <> "globals" ->
                  permission_of v = Some ReadOnly)
  /\ writable_globals environments = []
  /\ writable_globals configs = [("jasmine", "$testsScratch")].
Proof.
  intros Hrec Hin. apply lookup_Some_In in Hrec.
  split; [|split; [|split; reflexivity]].
  2:{ intros k v Hget Hk.
      simpl in Hrec.
      destruct Hrec as [E|[E|[E|[E|[E|[]]]]]];
        injection E as <- <-; simpl in Hget;
        match type of Hget with
        | (if k =? ?s then _ else _) = _ =>
            destruct (String.eqb_spec k s); [|discriminate]
        end;
        first [contradiction | now injection Hget as <-]. }
  assert (forallb (fun e =>
                     forallb (fun kv => is_read_only (snd kv))
                             (globals_of (snd e) ++ written_identifiers (snd e)))
                  environments = true) as Hall by reflexivity.
  rewrite forallb_forall in Hall. specialize (Hall _ Hrec). simpl snd in Hall.
  rewrite forallb_forall in Hall.
  assert (is_read_only (snd (g, tag)) = true) as Hro.
  { apply Hall. apply in_or_app. exact Hin. }
  unfold is_read_only in Hro. simpl in Hro.
  destruct (permission_of tag) as [[|]|]; congruence.
Qed.

Lemma environment_globals_read_only_witness :
  Js.lookup "djblets" environments = Some (VObj [("Djblets", VBool false)])
  /\ permission_of (VBool false) = Some ReadOnly.
Proof.
  split; [reflexivity|].
  refine (proj1 (environment_globals_read_only
                   "djblets" _ "Djblets" (VBool false) eq_refl _)).
  right. simpl. left. reflexivity.
Defined.

(** ** The configurations registry *)

(** C4: in every configuration of the registry, the severity component of
    every rule setting is one of off, warn and error. *)
Theorem rule_severity_valid
        (name : string) (cfg : value) (rid : string) (setting : value) :
  Js.lookup name configs = Some cfg ->
  In (rid, setting) (rules_of cfg) ->
  severity_of setting = Some Off
  \/ severity_of setting = Some Warn
  \/ severity_of setting = Some Error.
Proof.
  intros Hcfg Hin. apply lookup_Some_In in Hcfg.
  assert (forallb (fun e =>
                     forallb (fun kv => match severity_of (snd kv) with
                                        | Some _ => true
                                        | None => false
                                        end)
                             (rules_of (snd e)))
                  configs = true) as Hall by reflexivity.
  rewrite forallb_forall in Hall. specialize (Hall _ Hcfg). simpl in Hall.
  rewrite forallb_forall in Hall. specialize (Hall _ Hin). simpl in Hall.
  destruct (severity_of setting) as [[| |]|]; auto. discriminate.
Qed.

Lemma rule_severity_valid_witness :
  severity_of (VStr "off") = Some Off
  \/ severity_of (VStr "off") = Some Warn
  \/ severity_of (VStr "off") = Some Error.
Proof.
  refine (rule_severity_valid
            "jasmine" jasmineTestsConfig
            "jasmine/no-global-setup" (VStr "off") eq_refl _).
  simpl. right. right. left. reflexivity.
Defined.

(** C6: getConfiguration fails with NotFoundError exactly on the names that
    listConfigurations does not list; unknown-xyz is such a name, and every
    listed name yields a configuration record. *)
Theorem getConfiguration_not_found_iff_unlisted :
  (forall name,
      Registry.getConfiguration plugin name = inl Registry.NotFoundError
      <-> ~ In name (Registry.listConfigurations plugin))
  /\ Registry.getConfiguration plugin "unknown-xyz"
     = inl Registry.NotFoundError
  /\ (forall name,
         In name (Registry.listConfigurations plugin) ->
         exists fields,
           Registry.getConfiguration plugin name = inr (VObj fields)).
Proof.
  split; [intros name; apply getConfiguration_fails_iff|].
  split; [reflexivity|].
  intros name Hin. simpl in Hin.
  destruct Hin as [<-|[<-|[<-|[<-|[<-|[]]]]]]; eexists; reflexivity.
Qed.

(** C7: the rule identifiers of every configuration record are pairwise
    distinct and so are the five configuration names; serving any sequence of
    registry operations leaves the registry as constructed, so both hold
    ever after. *)
Theorem registry_names_unique_forever :
  Registry.listConfigurations plugin =
    ["es5"; "es6"; "typescript"; "jasmine"; "recommended"]
  /\ NoDup (Registry.listConfigurations plugin)
  /\ (forall name cfg,
         Js.lookup name configs = Some cfg ->
         NoDup (Js.keys (rules_of cfg)))
  /\ (forall requests,
         snd (Registry.run plugin requests) = plugin
         /\ Registry.unique_names (snd (Registry.run plugin requests))).
Proof.
  assert (NoDup (Registry.listConfigurations plugin)) as Hnames
      by (apply distinct_NoDup; reflexivity).
  assert (forall name cfg,
             Js.lookup name configs = Some cfg ->
             NoDup (Js.keys (rules_of cfg))) as Hrules.
  { intros name cfg Hcfg. apply lookup_Some_In in Hcfg.
    apply distinct_NoDup.
    assert (forallb (fun e => Js.distinct (Js.keys (rules_of (snd e))))
                    configs = true) as Hall by reflexivity.
    rewrite forallb_forall in Hall. exact (Hall _ Hcfg). }
  split; [reflexivity|]. split; [exact Hnames|]. split; [exact Hrules|].
  intros requests. rewrite run_reads_only.
  split; [reflexivity|]. split; [exact Hnames|exact Hrules].
Qed.

(** ** Override records of the recommended configuration *)

(** C2, as stated, fails: a file named fooTests.jsx matches the pattern
    [*Tests.*], yet no override of the recommended configuration applies to
    it, and no override record lists the pattern [*Tests.*]. *)
Lemma tests_star_pattern_not_routed :
  ~ (forall file,
        glob_match "*Tests.*" file = true ->
        In "plugin:@beanbag/jasmine"
           (resolve_overrides glob_match recommendedConfig file))
  /\ ~ (exists o,
           In o (overrides_of recommendedConfig)
           /\ In "*Tests.*" (override_files o)
           /\ In "plugin:@beanbag/jasmine" (override_extends o)).
Proof.
  split.
  - intros H. exact (H "fooTests.jsx" eq_refl).
  - intros (o & Ho & Hfiles & _). simpl in Ho.
    destruct Ho as [<-|[<-|[<-|[<-|[]]]]]; simpl in Hfiles;
      repeat (destruct Hfiles as [Hfiles|Hfiles]; [discriminate|]);
      exact Hfiles.
Qed.

(** C2, amended: the overrides of the recommended configuration pull in the
    jasmine configuration for a file exactly when the file matches one of the
    three patterns [*Tests.es6.js], [*Tests.js] and [*Tests.ts], whatever the
    host's matcher; the override records are the four listed, one of which
    pairs these three patterns with the jasmine configuration. *)
Theorem tests_overrides_route_to_jasmine
        (matches : string -> string -> bool) (file : string) :
  (In "plugin:@beanbag/jasmine"
      (resolve_overrides matches recommendedConfig file)
   <-> (matches "*Tests.es6.js" file = true
        \/ matches "*Tests.js" file = true
        \/ matches "*Tests.ts" file = true))
  /\ map (fun o => (override_files o, override_extends o))
         (overrides_of recommendedConfig) =
       [(["*.es6.js"], ["plugin:@beanbag/es6"]);
        (["*.ts"], ["plugin:@beanbag/typescript"]);
        (["*Tests.es6.js"; "*Tests.js"; "*Tests.ts"],
         ["plugin:@beanbag/jasmine"]);
        (["rollup.config.js"; ".babelrc"], ["plugin:@beanbag/es6"])].
Proof.
  split; [|reflexivity].
  unfold resolve_overrides, override_applies. simpl.
  destruct (matches "*.es6.js" file), (matches "*.ts" file),
    (matches "*Tests.es6.js" file), (matches "*Tests.js" file),
    (matches "*Tests.ts" file), (matches "rollup.config.js" file),
    (matches ".babelrc" file); simpl;
    (split;
     [ intros H; repeat (destruct H as [H|H]; [try discriminate|]);
       solve [auto | contradiction]
     | intros [H|[H|H]]; solve [discriminate | auto 6] ]).
Qed.

Lemma tests_overrides_route_to_jasmine_witness :
  glob_match "*Tests.js" "fooTests.js" = true
  /\ In "plugin:@beanbag/jasmine"
        (resolve_overrides glob_match recommendedConfig "fooTests.js").
Proof.
  split; [reflexivity|].
  apply (proj1 (tests_overrides_route_to_jasmine glob_match "fooTests.js")).
  right. left. reflexivity.
Defined.

(** ** The es6 rules over the es5 rules *)

(** C3: the rules declared by both es5 and es6 are comma-dangle and quotes,
    each redeclared by es6 with the severity es5 gives it.  The map obtained
    by merging es6 over es5 has one entry per rule identifier, hence no two
    entries of conflicting severities; it holds the es6 setting for exactly
    the rules es6 declares, and the es5 setting for every other rule. *)
Theorem es6_overrides_only_redeclared_rules :
  let es5 := rules_of es5Config in
  let es6 := rules_of es6Config in
  let merged := merge_rules es6 es5 in
  filter (fun rid => Js.has rid es6) (Js.keys es5) = ["comma-dangle"; "quotes"]
  /\ (forall rid s5 s6,
         Js.lookup rid es5 = Some s5 -> Js.lookup rid es6 = Some s6 ->
         severity_of s5 = severity_of s6)
  /\ NoDup (Js.keys merged)
  /\ (forall rid s s',
         In (rid, s) merged -> In (rid, s') merged ->
         severity_of s = severity_of s')
  /\ (forall rid s6,
         Js.lookup rid es6 = Some s6 ->
         Js.lookup rid merged = Some (normalize_setting s6))
  /\ (forall rid,
         Js.lookup rid es6 = None ->
         Js.lookup rid merged = option_map normalize_setting (Js.lookup rid es5)).
Proof.
  intros es5 es6 merged.
  assert (NoDup (Js.keys merged)) as Hnd
      by (apply distinct_NoDup; vm_compute; reflexivity).
  split; [reflexivity|].
  split.
  { intros rid s5 s6 H5 H6. apply lookup_Some_In in H6. simpl in H6.
    destruct H6 as [E|[E|[E|[E|[]]]]]; injection E as <- <-;
      vm_compute in H5; try discriminate;
      injection H5 as <-; reflexivity. }
  split; [exact Hnd|].
  split.
  { intros rid s s' Hs Hs'.
    now rewrite (keys_functional merged rid s s' Hnd Hs Hs'). }
  split.
  - intros rid s6 H6. unfold merged. rewrite lookup_merge_rules, H6.
    f_equal. apply lookup_Some_In in H6. simpl in H6.
    destruct H6 as [E|[E|[E|[E|[]]]]]; injection E as <- <-; reflexivity.
  - intros rid H6. unfold merged. now rewrite lookup_merge_rules, H6.
Qed.

(** ** Fall-through markers *)

(** C8: the ignorePattern of lines-around-comment and the commentPattern of
    no-fallthrough in es5, and the ignorePattern of
    @typescript-eslint/lines-around-comment in typescript, are the one
    string [[Ff]alls?\s?through]; whatever decides that a comment is
    recognized by a pattern decides the same for the three. *)
Theorem fall_through_patterns_agree
        (recognizes : string -> string -> bool) (p1 p2 p3 : string) :
  rule_option es5Config "lines-around-comment" 1 "ignorePattern"
    = Some (VStr p1) ->
  rule_option es5Config "no-fallthrough" 1 "commentPattern"
    = Some (VStr p2) ->
  rule_option typescriptConfig "@typescript-eslint/lines-around-comment" 1
              "ignorePattern"
    = Some (VStr p3) ->
  (p1 = "[Ff]alls?\s?through"
   /\ p2 = "[Ff]alls?\s?through"
   /\ p3 = "[Ff]alls?\s?through")
  /\ forall comment,
       recognizes p1 comment = recognizes p2 comment
       /\ recognizes p2 comment = recognizes p3 comment.
Proof.
  intros H1 H2 H3.
  vm_compute in H1, H2, H3.
  injection H1 as <-. injection H2 as <-. injection H3 as <-.
  repeat split; reflexivity.
Qed.

Lemma fall_through_patterns_agree_witness :
  rule_option es5Config "lines-around-comment" 1 "ignorePattern"
    = Some (VStr noFallThroughPattern)
  /\ forall comment,
       String.eqb noFallThroughPattern comment
         = String.eqb noFallThroughPattern comment
       /\ String.eqb noFallThroughPattern comment
         = String.eqb noFallThroughPattern comment.
Proof.
  split; [reflexivity|].
  exact (proj2 (fall_through_patterns_agree
                  String.eqb noFallThroughPattern noFallThroughPattern
                  noFallThroughPattern eq_refl eq_refl eq_refl)).
Defined.

(** ** The TypeScript variant of lines-around-comment *)

(** C9: the typescript rule map sets @typescript-eslint/lines-around-comment
    to warn and the base rule lines-around-comment to off; merged over any
    rule map, that of es5 in particular, it leaves the base rule off and the
    TypeScript rule on, so never both are active. *)
Theorem typescript_turns_base_lines_around_comment_off :
  let ts := rules_of typescriptConfig in
  option_map severity_of
             (Js.lookup "@typescript-eslint/lines-around-comment" ts)
    = Some (Some Warn)
  /\ Js.lookup "lines-around-comment" ts = Some (VStr "off")
  /\ option_map active
                (Js.lookup "lines-around-comment" (rules_of es5Config))
     = Some true
  /\ forall base,
       let merged := merge_rules ts base in
       option_map severity_of (Js.lookup "lines-around-comment" merged)
         = Some (Some Off)
       /\ option_map severity_of
                     (Js.lookup "@typescript-eslint/lines-around-comment"
                                merged)
          = Some (Some Warn)
       /\ forall s s',
            Js.lookup "lines-around-comment" merged = Some s ->
            Js.lookup "@typescript-eslint/lines-around-comment" merged
              = Some s' ->
            active s && active s' = false.
Proof.
  intros ts. split; [reflexivity|]. split; [reflexivity|].
  split; [reflexivity|]. intros base merged.
  assert (option_map severity_of (Js.lookup "lines-around-comment" merged)
          = Some (Some Off)) as Hoff.
  { unfold merged. rewrite lookup_merge_rules.
    change (Js.lookup "lines-around-comment" ts) with (Some (VStr "off")).
    simpl option_map. now rewrite severity_merge_setting. }
  split; [exact Hoff|]. split.
  - unfold merged. rewrite lookup_merge_rules.
    destruct (Js.lookup "@typescript-eslint/lines-around-comment" ts)
      as [v|] eqn:Ev; [|discriminate Ev].
    simpl option_map. rewrite severity_merge_setting.
    vm_compute in Ev. injection Ev as <-. reflexivity.
  - intros s s' Hs _. rewrite Hs in Hoff. simpl in Hoff.
    unfold active. injection Hoff as ->. reflexivity.
Qed.

(** ** Names and what they refer to *)

Lemma split_namespace_joins (s ns name : string) :
  split_namespace s = Some (ns, name) -> s = ns ++ "/" ++ name.
Proof.
  revert ns name. induction s as [|c rest IH]; simpl; [discriminate|].
  intros ns name. destruct (split_namespace rest) as [[ns' name']|].
  - intros E. injection E as <- <-. simpl. f_equal. now apply IH.
  - destruct (Ascii.eqb_spec c "/"%char) as [->|_]; [|discriminate].
    intros E. injection E as <- <-. reflexivity.
Qed.

Lemma gather_map_mono (g g' : string -> chain_error + list string)
      (names : list string) (chain : list string) :
  (forall n l, In n names -> g n = inr l -> g' n = inr l) ->
  gather (map g names) = inr chain ->
  gather (map g' names) = inr chain.
Proof.
  revert chain. induction names as [|n rest IH]; simpl; intros chain Hg;
    [tauto|].
  destruct (g n) as [e|l] eqn:En; [discriminate|].
  rewrite (Hg n l (or_introl eq_refl) En).
  destruct (gather (map g rest)) as [e|ls] eqn:Er; [discriminate|].
  intros E. rewrite (IH ls); [exact E| |reflexivity].
  intros n' l' Hin. apply Hg. now right.
Qed.

(** A chain found within some depth is found, the same, within any greater
    depth. *)
Lemma extends_chain_deeper (registry : props) (fuel : nat) :
  forall name chain,
    extends_chain fuel registry name = inr chain ->
    extends_chain (S fuel) registry name = inr chain.
Proof.
  induction fuel as [|fuel IH]; intros name chain; [discriminate|].
  change (extends_chain (S (S fuel)) registry name)
    with (match Js.lookup name registry with
          | None => inl (UnknownConfiguration name)
          | Some cfg =>
              match gather (map (extends_chain (S fuel) registry)
                                (config_references (extends_of cfg))) with
              | inl e => inl e
              | inr above => inr (above ++ [name])%list
              end
          end).
  simpl. destruct (Js.lookup name registry) as [cfg|]; [|discriminate].
  destruct (gather (map (extends_chain fuel registry)
                        (config_references (extends_of cfg))))
    as [e|above] eqn:Eg; [discriminate|].
  intros E.
  rewrite (gather_map_mono (extends_chain fuel registry)
                           (extends_chain (S fuel) registry) _ above);
    [exact E| |exact Eg].
  intros n l _. apply IH.
Qed.

Lemma extends_chain_more (registry : props) (fuel extra : nat)
      (name : string) (chain : list string) :
  extends_chain fuel registry name = inr chain ->
  extends_chain (extra + fuel) registry name = inr chain.
Proof.
  intros H. induction extra as [|extra IH]; [exact H|].
  now apply extends_chain_deeper.
Qed.

(** A setting that carries options comes out of the cascade as written,
    whatever it overrides. *)
Lemma merge_setting_with_options (setting : value) (base : option value) :
  has_options setting = true -> merge_setting setting base = setting.
Proof.
  destruct setting as [s|n|b|[|sev [|opt opts]]|fs]; try discriminate.
  reflexivity.
Qed.

(** X1: every [extends] entry written in a registered configuration, its own
    or one of its override records', that names a configuration of this
    package names a registered one, which is neither the configuration itself
    nor the recommended configuration. *)
Theorem extends_references_registered
        (name : string) (cfg : value) (entry target : string) :
  Js.lookup name configs = Some cfg ->
  In entry (all_extends cfg) ->
  config_reference entry = Some target ->
  In target (Js.keys configs) /\ target <> name /\ target <> "recommended".
Proof.
  intros Hcfg Hin Href. apply lookup_Some_In in Hcfg.
  assert (forallb (fun e =>
            forallb (fun s =>
                       match config_reference s with
                       | Some t => Js.has t configs
                                   && negb (t =? fst e)
                                   && negb (t =? "recommended")
                       | None => true
                       end)
                    (all_extends (snd e)))
            configs = true) as Hall by (vm_compute; reflexivity).
  rewrite forallb_forall in Hall. specialize (Hall _ Hcfg). simpl fst in Hall.
  simpl snd in Hall. rewrite forallb_forall in Hall. specialize (Hall _ Hin).
  rewrite Href in Hall.
  apply andb_true_iff in Hall as [Hall Hrec].
  apply andb_true_iff in Hall as [Hreg Hself].
  apply negb_true_iff in Hrec, Hself.
  split; [now apply has_true_iff|].
  split; now apply String.eqb_neq.
Qed.

Lemma extends_references_registered_witness :
  In "es6" (Js.keys configs) /\ "es6" <> "typescript" /\ "es6" <> "recommended".
Proof.
  refine (extends_references_registered
            "typescript" typescriptConfig "plugin:@beanbag/es6" "es6"
            eq_refl _ eq_refl).
  simpl. left. reflexivity.
Defined.

(** X2: every environment a registered configuration switches on, of this
    package or not, is switched on with [true]; and when its key names an
    environment of this package, that environment is registered and holds
    its globals under a [globals] mapping of permission tags. *)
Theorem enabled_environments_registered
        (name : string) (cfg : value) (key : string) (flag : value) :
  Js.lookup name configs = Some cfg ->
  In (key, flag) (env_of cfg) ->
  flag = VBool true
  /\ forall env,
       package_reference key = Some env ->
       exists record,
         Js.lookup env environments = Some record
         /\ well_shaped_environment record = true.
Proof.
  intros Hcfg Hin. apply lookup_Some_In in Hcfg.
  assert (forallb (fun e =>
            forallb (fun kv =>
                       match snd kv with VBool true => true | _ => false end
                       && match package_reference (fst kv) with
                          | Some n =>
                              match Js.lookup n environments with
                              | Some record => well_shaped_environment record
                              | None => false
                              end
                          | None => true
                          end)
                    (env_of (snd e)))
            configs = true) as Hall by (vm_compute; reflexivity).
  rewrite forallb_forall in Hall. specialize (Hall _ Hcfg). simpl snd in Hall.
  rewrite forallb_forall in Hall. specialize (Hall _ Hin).
  simpl fst in Hall. simpl snd in Hall.
  apply andb_true_iff in Hall as [Hflag Hrec]. split.
  - destruct flag as [?|?|[|]|?|?]; try discriminate. reflexivity.
  - intros env Href. rewrite Href in Hrec.
    destruct (Js.lookup env environments) as [record|]; [|discriminate].
    now exists record.
Qed.

Lemma enabled_environments_registered_witness :
  (VBool true = VBool true
   /\ forall env,
        package_reference "es2021" = Some env ->
        exists record,
          Js.lookup env environments = Some record
          /\ well_shaped_environment record = true)
  /\ exists record,
       Js.lookup "jasmine-suites" environments = Some record
       /\ well_shaped_environment record = true.
Proof.
  split.
  - refine (enabled_environments_registered
              "es6" es6Config "es2021" (VBool true) eq_refl _).
    simpl. left. reflexivity.
  - refine (proj2 (enabled_environments_registered
                     "jasmine" jasmineTestsConfig "@beanbag/jasmine-suites"
                     (VBool true) eq_refl _) "jasmine-suites" eq_refl).
    simpl. left. reflexivity.
Defined.

(** X3: in every registered configuration, a rule identifier that belongs to
    a plugin belongs to a plugin the configuration itself lists under
    [plugins]. *)
Theorem plugin_rules_have_their_plugin
        (name : string) (cfg : value) (rid : string) (setting : value)
        (plugin : string) :
  Js.lookup name configs = Some cfg ->
  In (rid, setting) (rules_of cfg) ->
  rule_plugin rid = Some plugin ->
  In plugin (plugins_of cfg).
Proof.
  intros Hcfg Hin Hp. apply lookup_Some_In in Hcfg.
  assert (forallb (fun e =>
            forallb (fun kv =>
                       match rule_plugin (fst kv) with
                       | Some p => existsb (String.eqb p) (plugins_of (snd e))
                       | None => true
                       end)
                    (rules_of (snd e)))
            configs = true) as Hall by (vm_compute; reflexivity).
  rewrite forallb_forall in Hall. specialize (Hall _ Hcfg). simpl snd in Hall.
  rewrite forallb_forall in Hall. specialize (Hall _ Hin).
  simpl fst in Hall. rewrite Hp in Hall.
  apply existsb_exists in Hall as (p & Hin' & E).
  apply String.eqb_eq in E. now subst.
Qed.

Lemma plugin_rules_have_their_plugin_witness :
  In "@typescript-eslint" (plugins_of typescriptConfig).
Proof.
  refine (plugin_rules_have_their_plugin
            "typescript" typescriptConfig "@typescript-eslint/no-this-alias"
            (VStr "warn") "@typescript-eslint" eq_refl _ eq_refl).
  simpl. left. reflexivity.
Defined.

(** X4: following the [extends] entries from any registered configuration
    ends: two levels are enough, any greater depth gives the same chain, and
    the chain lists registered configurations without repetition, the
    starting one last. *)
Theorem extends_chains_end (name : string) (extra : nat) :
  In name (Js.keys configs) ->
  exists chain,
    extends_chain (extra + 2) configs name = inr chain
    /\ last chain "" = name
    /\ NoDup chain
    /\ incl chain (Js.keys configs)
    /\ chain_names configs name = chain.
Proof.
  intros Hin. simpl in Hin.
  destruct Hin as [<-|[<-|[<-|[<-|[<-|[]]]]]];
    eexists;
    (split; [apply extends_chain_more; vm_compute; reflexivity|]);
    (split; [reflexivity|]);
    (split; [apply distinct_NoDup; reflexivity|]);
    (split; [|reflexivity]);
    intros x Hx; simpl in Hx; simpl;
    repeat (destruct Hx as [<-|Hx]; [tauto|]); contradiction.
Qed.

Lemma extends_chains_end_witness :
  exists chain,
    extends_chain 5 configs "typescript" = inr chain
    /\ last chain "" = "typescript"
    /\ NoDup chain
    /\ incl chain (Js.keys configs)
    /\ chain_names configs "typescript" = chain.
Proof.
  refine (extends_chains_end "typescript" 3 _).
  simpl. right. right. left. reflexivity.
Defined.

(** X5: the lint configuration of the package names the recommended
    configuration, and under it, whatever the host's matcher: the es5 rules
    are in force on every file; the es6 rules exactly on the files that match
    [*.es6.js], [*.ts], [rollup.config.js] or [.babelrc]; the typescript rules
    exactly on those that match [*.ts]; the jasmine rules exactly on those
    that match one of the three test patterns.  No other registered
    configuration has override records. *)
Theorem recommended_routes_files
        (matches : string -> string -> bool) (file : string) :
  map (resolve_plugin_config eslint_config_plugins) eslint_config_extends
    = [Some recommendedConfig]
  /\ In "es5" (applied_configs matches file)
  /\ (In "es6" (applied_configs matches file)
      <-> (matches "*.es6.js" file = true
           \/ matches "*.ts" file = true
           \/ matches "rollup.config.js" file = true
           \/ matches ".babelrc" file = true))
  /\ (In "typescript" (applied_configs matches file)
      <-> matches "*.ts" file = true)
  /\ (In "jasmine" (applied_configs matches file)
      <-> (matches "*Tests.es6.js" file = true
           \/ matches "*Tests.js" file = true
           \/ matches "*Tests.ts" file = true))
  /\ (forall name cfg,
         Js.lookup name configs = Some cfg ->
         overrides_of cfg <> [] -> name = "recommended").
Proof.
  split; [reflexivity|].
  assert (forall name cfg,
             Js.lookup name configs = Some cfg ->
             overrides_of cfg <> [] -> name = "recommended") as Honly.
  { intros name cfg Hcfg Hov. apply lookup_Some_In in Hcfg. simpl in Hcfg.
    destruct Hcfg as [E|[E|[E|[E|[E|[]]]]]]; injection E as <- <-;
      solve [reflexivity | now destruct Hov]. }
  cut (In "es5" (applied_configs matches file)
       /\ (In "es6" (applied_configs matches file)
           <-> (matches "*.es6.js" file = true
                \/ matches "*.ts" file = true
                \/ matches "rollup.config.js" file = true
                \/ matches ".babelrc" file = true))
       /\ (In "typescript" (applied_configs matches file)
           <-> matches "*.ts" file = true)
       /\ (In "jasmine" (applied_configs matches file)
           <-> (matches "*Tests.es6.js" file = true
                \/ matches "*Tests.js" file = true
                \/ matches "*Tests.ts" file = true))).
  { intros (H5 & H6 & Hts & Hj). auto. }
  unfold applied_configs, resolve_overrides, override_applies. simpl.
  destruct (matches "*.es6.js" file), (matches "*.ts" file),
    (matches "*Tests.es6.js" file), (matches "*Tests.js" file),
    (matches "*Tests.ts" file), (matches "rollup.config.js" file),
    (matches ".babelrc" file); vm_compute;
    (split; [tauto|]);
    (repeat split; intros H;
     repeat match goal with
            | H : _ \/ _ |- _ => destruct H as [H|H]
            end;
     solve [discriminate | contradiction | auto 8]).
Qed.

(** X6: every rule of the jasmine configuration belongs to the plugin
    jasmine, and none is a rule of es5, es6 or typescript; so mixing the
    jasmine rules into any rule map leaves every rule outside that plugin as
    it was. *)
Theorem jasmine_mixin_keeps_other_rules (base : props) (rid : string) :
  rule_plugin rid <> Some "jasmine" ->
  Js.lookup rid (merge_rules (rules_of jasmineTestsConfig) base)
    = option_map normalize_setting (Js.lookup rid base)
  /\ (forall r, In r (Js.keys (rules_of jasmineTestsConfig)) ->
                rule_plugin r = Some "jasmine"
                /\ Js.lookup r (rules_of es5Config) = None
                /\ Js.lookup r (rules_of es6Config) = None
                /\ Js.lookup r (rules_of typescriptConfig) = None).
Proof.
  intros Hother. split.
  - rewrite lookup_merge_rules.
    destruct (Js.lookup rid (rules_of jasmineTestsConfig)) as [v|] eqn:Ev;
      [|reflexivity].
    exfalso. apply Hother. apply lookup_Some_In in Ev. simpl in Ev.
    repeat (destruct Ev as [E|Ev]; [injection E as <- <-; reflexivity|]).
    contradiction.
  - intros r Hr. simpl in Hr.
    repeat (destruct Hr as [<-|Hr]; [repeat split; reflexivity|]).
    contradiction.
Qed.

Lemma jasmine_mixin_keeps_other_rules_witness :
  Js.lookup "quotes" (merge_rules (rules_of jasmineTestsConfig)
                                  (rules_of es5Config))
    = option_map normalize_setting (Js.lookup "quotes" (rules_of es5Config)).
Proof.
  refine (proj1 (jasmine_mixin_keeps_other_rules
                   (rules_of es5Config) "quotes" _)).
  simpl. discriminate.
Defined.

(** X7: every rule setting of every registered configuration is either a
    bare severity or an array that carries at least one option after its
    severity; a setting of the second kind comes out of the cascade exactly
    as written, whatever it overrides. *)
Theorem settings_bare_or_with_options
        (name : string) (cfg : value) (rid : string) (setting : value) :
  Js.lookup name configs = Some cfg ->
  In (rid, setting) (rules_of cfg) ->
  (bare_severity setting = true /\ has_options setting = false)
  \/ (has_options setting = true
      /\ forall base, merge_setting setting base = setting).
Proof.
  intros Hcfg Hin. apply lookup_Some_In in Hcfg.
  assert (forallb (fun e =>
            forallb (fun kv => bare_severity (snd kv) || has_options (snd kv))
                    (rules_of (snd e)))
            configs = true) as Hall by (vm_compute; reflexivity).
  rewrite forallb_forall in Hall. specialize (Hall _ Hcfg). simpl snd in Hall.
  rewrite forallb_forall in Hall. specialize (Hall _ Hin). simpl snd in Hall.
  destruct (has_options setting) eqn:Eo.
  - right. split; [reflexivity|].
    intros base. now apply merge_setting_with_options.
  - left. rewrite orb_false_r in Hall. now split.
Qed.

Lemma settings_bare_or_with_options_witness :
  (bare_severity (VStr "error") = true /\ has_options (VStr "error") = false)
  \/ (has_options (VStr "error") = true
      /\ forall base, merge_setting (VStr "error") base = VStr "error").
Proof.
  refine (settings_bare_or_with_options
            "es6" es6Config "no-var" (VStr "error") eq_refl _).
  simpl. right. left. reflexivity.
Defined.

(** X8: the globals a registered configuration declares are tagged with the
    strings readonly or writable, never with a boolean; they are dedent,
    read-only, in es6 and $testsScratch, writable, in jasmine. *)
Theorem configuration_globals_tagged
        (name : string) (cfg : value) (g : string) (tag : value) :
  Js.lookup name configs = Some cfg ->
  In (g, tag) (globals_of cfg) ->
  (tag = VStr "readonly" \/ tag = VStr "writable")
  /\ flat_map (fun e => map (fun kv => (fst e, fst kv, permission_of (snd kv)))
                            (globals_of (snd e)))
              configs
     = [("es6", "dedent", Some ReadOnly);
        ("jasmine", "$testsScratch", Some Writable)].
Proof.
  intros Hcfg Hin. split; [|reflexivity].
  apply lookup_Some_In in Hcfg. simpl in Hcfg.
  destruct Hcfg as [E|[E|[E|[E|[E|[]]]]]]; injection E as <- <-;
    simpl in Hin; try contradiction;
    destruct Hin as [E|[]]; injection E as <- <-; auto.
Qed.

Lemma configuration_globals_tagged_witness :
  VStr "writable" = VStr "readonly" \/ VStr "writable" = VStr "writable".
Proof.
  refine (proj1 (configuration_globals_tagged
                   "jasmine" jasmineTestsConfig "$testsScratch"
                   (VStr "writable") eq_refl _)).
  simpl. left. reflexivity.
Defined.

(** X9: the README and the registries agree on names: the environments the
    README lists are the registered ones, in the same order, each with
    exactly the identifiers its record writes, all tagged read-only; every
    configuration the README describes is registered, and jasmine is the one
    registered configuration it does not describe. *)
Theorem readme_names_registered :
  map package_reference (map fst readme_environments)
    = map Some (Js.keys environments)
  /\ (forall doc ids name record,
         In (doc, ids) readme_environments ->
         package_reference doc = Some name ->
         Js.lookup name environments = Some record ->
         Js.keys (written_identifiers record) = ids
         /\ forallb (fun kv => is_read_only (snd kv))
                    (written_identifiers record) = true)
  /\ (forall doc,
         In doc readme_configurations ->
         exists name,
           package_reference doc = Some name /\ In name (Js.keys configs))
  /\ filter (fun name =>
               negb (existsb (fun doc => match package_reference doc with
                                         | Some n => n =? name
                                         | None => false
                                         end)
                             readme_configurations))
            (Js.keys configs)
     = ["jasmine"].
Proof.
  split; [reflexivity|]. split.
  - intros doc ids name record Hin Href Hrec. simpl in Hin.
    repeat (destruct Hin as [E|Hin];
            [injection E as <- <-; vm_compute in Href;
             injection Href as <-; vm_compute in Hrec;
             injection Hrec as <-; split; reflexivity|]).
    contradiction.
  - split; [|reflexivity].
    intros doc Hin. simpl in Hin.
    repeat (destruct Hin as [<-|Hin];
            [eexists; split; [reflexivity|simpl; tauto]|]).
    contradiction.
Qed.

(** X10: two different registered configurations declare the same rule only
    in three cases: comma-dangle and quotes, declared by es5 and es6, and
    lines-around-comment, declared by es5 and typescript. *)
Theorem shared_rules_of_configurations
        (n1 n2 : string) (c1 c2 : value) (rid : string) :
  Js.lookup n1 configs = Some c1 ->
  Js.lookup n2 configs = Some c2 ->
  n1 <> n2 ->
  In rid (Js.keys (rules_of c1)) ->
  In rid (Js.keys (rules_of c2)) ->
  (In rid ["comma-dangle"; "quotes"]
   /\ In (n1, n2) [("es5", "es6"); ("es6", "es5")])
  \/ (rid = "lines-around-comment"
      /\ In (n1, n2) [("es5", "typescript"); ("typescript", "es5")]).
Proof.
  intros H1 H2 Hne Hr1 Hr2.
  apply lookup_Some_In in H1, H2. apply has_true_iff in Hr2.
  simpl in H1, H2.
  destruct H1 as [E|[E|[E|[E|[E|[]]]]]]; injection E as <- <-;
    destruct H2 as [E|[E|[E|[E|[E|[]]]]]]; injection E as <- <-;
    try (now destruct Hne); clear Hne;
    simpl in Hr1;
    repeat (destruct Hr1 as [<-|Hr1];
            [vm_compute in Hr2; try discriminate Hr2; simpl; tauto|]);
    contradiction.
Qed.

Lemma shared_rules_of_configurations_witness :
  (In "quotes" ["comma-dangle"; "quotes"]
   /\ In ("es6", "es5") [("es5", "es6"); ("es6", "es5")])
  \/ ("quotes" = "lines-around-comment"
      /\ In ("es6", "es5") [("es5", "typescript"); ("typescript", "es5")]).
Proof.
  refine (shared_rules_of_configurations
            "es6" "es5" es6Config es5Config "quotes" eq_refl eq_refl _ _ _).
  - discriminate.
  - simpl. tauto.
  - simpl. tauto.
Defined.
